(** * new_fred: the Sources and Tags request builders

    A shallow embedding of [new_fred/sources.py] and [new_fred/tags.py].
    The two classes turn method arguments into a request URL, hand the
    URL to the fetch helper inherited from [Series], remember the answer
    in a per-instance dictionary under the method's name and return it.

    Python statements are embedded in a small monad that threads the
    interpreter state and distinguishes the three ways a statement can
    end: falling through to the next statement, executing [return], and
    raising an exception. *)

From Stdlib Require Import ZArith String Ascii DecimalString DecimalZ.
From stdpp Require Import base option list gmap strings.

(** ** Python values *)

(** Exceptions, by class.  [OtherError] stands for whatever the HTTP
    layer or the JSON parser raises. *)
Inductive exn : Type :=
  | TypeError
  | ValueError
  | NameError (name : string)
  | KeyError (key : string)
  | OtherError (cls : string).

#[global] Instance exn_eq_dec : EqDecision exn.
Proof. solve_decision. Defined.

(** The interpreter setting that bounds the conversion of an [int] to
    [str]: [sys.get_int_max_str_digits()], where [0] stands for no bound
    (as in interpreters that predate the setting). *)
Class Interpreter : Type := {
  int_max_str_digits : N
}.

(** The values a caller can pass for the required arguments [source_id]
    and [tag_names].  Annotations are not enforced by Python, so these
    arguments range over more than their declared type.

    - [PyInt] is an [int] proper; [PyBool] is a [bool], which passes
      for an [int] too.
    - [PyStr] holds the UTF-8 text of a [str].
    - [PyObj] is an object of another class whose conversion by [str()]
      ends the same way each time: [to_str] is the text its [__str__]
      returns, or [None] when the conversion raises [TypeError] (as it
      does when [__str__] raises it or returns something that is not a
      [str]).
    - [PyOther] is an object of another class in general: [first] is
      how its first conversion by [str()] ends, [again] how the next
      one does.
    - [PyTuple] is a tuple, or an instance of a subclass of [tuple]:
      [to_str] is how [str()] ends on it, [items] are its items.

    Passed as [tag_names], [PyObj] and [PyOther] stand for objects that
    cannot be iterated. *)
#[warnings="-register-all"]
Inductive pyval : Type :=
  | PyNone
  | PyInt (n : Z)
  | PyStr (s : string)
  | PyObj (to_str : option string)
  | PyBool (b : bool)
  | PyOther (first again : exn + string)
  | PyTuple (to_str : exn + string) (items : list pyval).

(** An argument that may also be a list or another iterable, given by
    the items it yields, in order; iterating it is taken to end
    normally. *)
Inductive pyarg : Type :=
  | PyVal (v : pyval)
  | PyList (items : list pyval).

(** Values of the optional keyword arguments, by declared type
    ([str], [int], [list] of [str]); an unset argument is [None]. *)
Inductive param : Type :=
  | PStr (s : string)
  | PInt (n : Z)
  | PList (l : list string).

(** [str(n)] for an [int]: decimal digits, with a leading minus sign for
    negative numbers. *)
Definition str_int (n : Z) : string :=
  NilZero.string_of_int (Z.to_int n).

(** The number of decimal digits of [n], the sign not counted. *)
Definition int_digits (n : Z) : N :=
  N.of_nat (Decimal.nb_digits
              (match Z.to_int n with Decimal.Pos d | Decimal.Neg d => d end)).

(** Whether the interpreter converts [n] to [str]: it refuses, with
    [ValueError], when [n] has more digits than the bound. *)
Definition str_int_allowed `{Interpreter} (n : Z) : bool :=
  (int_max_str_digits =? 0)%N || (int_digits n <=? int_max_str_digits)%N.

(** [str(v)], for the first time on [v]. *)
Definition py_str `{Interpreter} (v : pyval) : exn + string :=
  match v with
  | PyNone => inr "None"
  | PyInt n => if str_int_allowed n then inr (str_int n) else inl ValueError
  | PyStr s => inr s
  | PyObj (Some s) => inr s
  | PyObj None => inl TypeError
  | PyBool true => inr "True"
  | PyBool false => inr "False"
  | PyOther first _ => first
  | PyTuple to_str _ => to_str
  end.

(** [str(v)], once more on the same [v]. *)
Definition py_str_again `{Interpreter} (v : pyval) : exn + string :=
  match v with
  | PyOther _ again => again
  | _ => py_str v
  end.

(** [(before + "%s" + after) % v], where [str(v)] has been tried once
    before.  A tuple operand is the tuple of the values to format: with
    one [%s] it must hold one item, and that item is converted.  Any
    other operand is the one value to format, and is converted again. *)
Definition py_format_s `{Interpreter} (before after : string) (v : pyval)
    : exn + string :=
  let converted :=
    match v with
    | PyTuple _ [item] => py_str item
    | PyTuple _ _ => inl TypeError
    | _ => py_str_again v
    end in
  match converted with
  | inr s => inr (before +:+ s +:+ after)
  | inl e => inl e
  end.

(** The items of an iterable handed to [str.join]; each must be a [str]. *)
Fixpoint str_items (items : list pyval) : exn + list string :=
  match items with
  | [] => inr []
  | PyStr s :: rest =>
      match str_items rest with
      | inr l => inr (s :: l)
      | inl e => inl e
      end
  | _ :: _ => inl TypeError
  end.

(** A byte of the form [10xxxxxx], which in UTF-8 continues the
    character begun before it. *)
Definition is_continuation (c : ascii) : bool :=
  match c with
  | Ascii _ _ _ _ _ _ b6 b7 => b7 && negb b6
  end.

(** Iterating a [str] yields its characters, each a one-character
    [str]: in the UTF-8 text, a byte together with the continuation
    bytes that follow it. *)
Fixpoint chars (s : string) : list string :=
  match s with
  | EmptyString => []
  | String c rest =>
      let tail := chars rest in
      match rest, tail with
      | String d _, item :: items =>
          if is_continuation d then String c item :: items
          else String c EmptyString :: tail
      | _, _ => String c EmptyString :: tail
      end
  end.

(** [sep.join(arg)]: [TypeError] when [arg] is not iterable or holds an
    item that is not a [str]. *)
Definition py_join (sep : string) (arg : pyarg) : exn + string :=
  match arg with
  | PyList items | PyVal (PyTuple _ items) =>
      match str_items items with
      | inr l => inr (String.concat sep l)
      | inl e => inl e
      end
  | PyVal (PyStr s) => inr (String.concat sep (chars s))
  | PyVal _ => inl TypeError
  end.

(** What a conversion adds to a URL prefix under [try]: its text, or
    nothing when it raised. *)
Definition text_or_empty (r : exn + string) : string :=
  match r with
  | inr s => s
  | inl _ => ""
  end.

(** ** Statements *)

(** How a statement ends. *)
Inductive outcome (R A : Type) : Type :=
  | Next (a : A)
  | Return (r : R)
  | Raise (e : exn).
Arguments Next {R A} a.
Arguments Return {R A} r.
Arguments Raise {R A} e.

Section Methods.

(** [json] is the type of parsed answers, [B] the attributes that
    [Series.__init__] sets on the instance, [W] the remote service (and
    whatever else the fetch helper reads). *)
Context {json B W : Type}.

(** An instance of [Tags] (which extends [Sources], which extends
    [Series]).  An instance of [Sources] proper has no [tag_stack]; the
    methods of [Sources] never touch that field. *)
Record instance : Type := mkInstance {
  base : B;
  source_stack : gmap string json;
  tag_stack : gmap string json
}.

(** The interpreter state: the object [self], what has been printed, the
    remote world, and (as a ghost field) the URLs passed to the fetch
    helper so far, oldest first. *)
Record state : Type := mkState {
  self : instance;
  stdout : list string;
  requests : list string;
  world : W
}.

Definition stmt (R A : Type) : Type := state -> outcome R A * state.

Definition next {R A} (a : A) : stmt R A := fun st => (Next a, st).

Definition return_ {R} (r : R) : stmt R unit := fun st => (Return r, st).

Definition raise {R A} (e : exn) : stmt R A := fun st => (Raise e, st).

Definition bind {R A A'} (c : stmt R A) (k : A -> stmt R A') : stmt R A' :=
  fun st =>
    match c st with
    | (Next a, st') => k a st'
    | (Return r, st') => (Return r, st')
    | (Raise e, st') => (Raise e, st')
    end.

(** Evaluate an expression that may raise. *)
Definition eval {R A} (r : exn + A) : stmt R A :=
  match r with
  | inr a => next a
  | inl e => raise e
  end.

(** [try: body / except TypeError: handler]. *)
Definition try_except_TypeError {R A} (body handler : stmt R A) : stmt R A :=
  fun st =>
    match body st with
    | (Raise TypeError, st') => handler st'
    | other => other
    end.

(** The state after one more line has been printed. *)
Definition log_line (line : string) (st : state) : state :=
  mkState (self st) (stdout st ++ [line]) (requests st) (world st).

(** [print(line)]. *)
Definition py_print {R} (line : string) : stmt R unit :=
  fun st => (Next tt, log_line line st).

(** Reading a name that is bound nowhere (not a local, a global or a
    builtin). *)
Definition unbound_name {R A} (name : string) : stmt R A :=
  raise (NameError name).

(** Calling a method: the value of [return], [None] when the body falls
    off its end, or the exception that escapes. *)
Definition call {R} (body : stmt R unit) (st : state) : (exn + option R) * state :=
  match body st with
  | (Next _, st') => (inr None, st')
  | (Return r, st') => (inr (Some r), st')
  | (Raise e, st') => (inl e, st')
  end.

End Methods.

Arguments instance : clear implicits.
Arguments state : clear implicits.
Arguments stmt : clear implicits.

Declare Scope stmt_scope.
Delimit Scope stmt_scope with stmt.
Notation "x <- c ;; k" := (bind c (fun x => k))
  (at level 100, c at next level, k at level 200, right associativity) : stmt_scope.
Notation "c ;; k" := (bind c (fun _ => k))
  (at level 100, k at level 200, right associativity) : stmt_scope.

(** ** The helpers inherited from [Series]

    [Sources] extends [Series], whose methods build the query string and
    talk to the service.  The classes below only call them, so they are
    an interface here.  None of the three assigns to [source_stack],
    [tag_stack] or any other attribute of the instance: the result
    dictionaries are the only state the client keeps between calls.

    - [_add_optional_params url optional_args] is the URL with the
      optional arguments added; [optional_args] is the dictionary literal
      of the caller, in insertion order, an unset argument being [None];
    - [_get_realtime_date b realtime_start realtime_end] is the
      real-time window of a request, read off the attributes [b];
    - [_fetch_data url w] asks the service in world [w] for [url] and
      gives the parsed answer, or the exception raised, and the world
      afterwards. *)
Class Series (json B W : Type) : Type := {
  _add_optional_params : string -> list (string * option param) -> string;
  _get_realtime_date : B -> option string -> option string -> string;
  _fetch_data : string -> W -> (exn + json) * W
}.

Section Classes.

Context {json B W : Type} {helpers : Series json B W} {python : Interpreter}.

Local Open Scope stmt_scope.

Abbreviation method := (stmt json B W json unit).

(** [self._fetch_data(url)]. *)
Definition fetch_data {R} (url : string) : stmt json B W R json :=
  fun st =>
    let '(r, w) := _fetch_data url (world st) in
    let st' := mkState (self st) (stdout st) (requests st ++ [url]) w in
    match r with
    | inr answer => (Next answer, st')
    | inl e => (Raise e, st')
    end.

(** [self._get_realtime_date(realtime_start, realtime_end)]. *)
Definition get_realtime_date {R} (realtime_start realtime_end : option string)
    : stmt json B W R string :=
  fun st => (Next (_get_realtime_date (base (self st)) realtime_start realtime_end), st).

(** [self.source_stack[key] = v]. *)
Definition source_stack_set {R} (key : string) (v : json) : stmt json B W R unit :=
  fun st =>
    let o := self st in
    (Next tt,
     mkState (mkInstance (base o) (<[key := v]> (source_stack o)) (tag_stack o))
             (stdout st) (requests st) (world st)).

(** [self.source_stack[key]]. *)
Definition source_stack_get {R} (key : string) : stmt json B W R json :=
  fun st =>
    match source_stack (self st) !! key with
    | Some v => (Next v, st)
    | None => (Raise (KeyError key), st)
    end.

(** [self.tag_stack[key] = v]. *)
Definition tag_stack_set {R} (key : string) (v : json) : stmt json B W R unit :=
  fun st =>
    let o := self st in
    (Next tt,
     mkState (mkInstance (base o) (source_stack o) (<[key := v]> (tag_stack o)))
             (stdout st) (requests st) (world st)).

(** [self.tag_stack[key]]. *)
Definition tag_stack_get {R} (key : string) : stmt json B W R json :=
  fun st =>
    match tag_stack (self st) !! key with
    | Some v => (Next v, st)
    | None => (Raise (KeyError key), st)
    end.

(** *** class Sources *)

(** [Sources.__init__], after [super().__init__()] has set the
    attributes [b]; the subclass [Tags] adds an empty [tag_stack]. *)
Definition init (b : B) : instance json B := mkInstance b ∅ ∅.

Definition get_all_sources
    (realtime_start realtime_end : option string)
    (limit offset : option Z)
    (order_by sort_order : option string) : method :=
  let url_prefix := "sources?" in
  let optional_args :=
    [ ("&realtime_start=", PStr <$> realtime_start);
      ("&realtime_end=", PStr <$> realtime_end);
      ("&limit=", PInt <$> limit);
      ("&offset=", PInt <$> offset);
      ("&order_by=", PStr <$> order_by);
      ("&sort_order=", PStr <$> sort_order) ] in
  let url := _add_optional_params url_prefix optional_args in
  answer <- fetch_data url ;;
  source_stack_set "get_all_sources" answer ;;
  result <- source_stack_get "get_all_sources" ;;
  return_ result.

Definition get_a_source
    (source_id : pyval)
    (realtime_start realtime_end : option string) : method :=
  let url_prefix := "source?source_id=" in
  url_prefix <-
    try_except_TypeError
      (s <- eval (py_str source_id) ;;
       next (url_prefix +:+ s))
      (message <- eval (py_format_s "Unable to cast source_id " " to str" source_id) ;;
       py_print message ;;
       next url_prefix) ;;
  let optional_args :=
    [ ("&realtime_start=", PStr <$> realtime_start);
      ("&realtime_end=", PStr <$> realtime_end) ] in
  let url := _add_optional_params url_prefix optional_args in
  answer <- fetch_data url ;;
  source_stack_set "get_a_source" answer ;;
  result <- source_stack_get "get_a_source" ;;
  return_ result.

Definition get_releases_for_a_source
    (source_id : pyval)
    (realtime_start realtime_end : option string)
    (limit offset : option Z)
    (order_by sort_order : option string) : method :=
  let url_prefix := "source/releases?source_id=" in
  url_prefix <-
    try_except_TypeError
      (s <- eval (py_str source_id) ;;
       next (url_prefix +:+ s))
      (message <- eval (py_format_s "Unable to cast source_id " " to str" source_id) ;;
       py_print message ;;
       next url_prefix) ;;
  let optional_args :=
    [ ("&realtime_start=", PStr <$> realtime_start);
      ("&realtime_end=", PStr <$> realtime_end);
      ("&limit=", PInt <$> limit);
      ("&offset=", PInt <$> offset);
      ("&order_by=", PStr <$> order_by);
      ("&sort_order=", PStr <$> sort_order) ] in
  let url := _add_optional_params url_prefix optional_args in
  answer <- fetch_data url ;;
  source_stack_set "get_releases_for_a_source" answer ;;
  result <- source_stack_get "get_releases_for_a_source" ;;
  return_ result.

(** *** class Tags *)

Definition get_tags
    (realtime_start realtime_end : option string)
    (tag_names : option (list string))
    (tag_group_id search_text : option string)
    (limit offset : option Z)
    (order_by sort_order : option string) : method :=
  let url_prefix := "tags?" in
  let optional_args :=
    [ ("&realtime_start=", PStr <$> realtime_start);
      ("&realtime_end=", PStr <$> realtime_end);
      ("&tag_names=", PList <$> tag_names);
      ("&tag_group_id=", PStr <$> tag_group_id);
      ("&search_text=", PStr <$> search_text);
      ("&limit=", PInt <$> limit);
      ("&offset=", PInt <$> offset);
      ("&order_by=", PStr <$> order_by);
      ("&sort_order=", PStr <$> sort_order) ] in
  let url := _add_optional_params url_prefix optional_args in
  answer <- fetch_data url ;;
  tag_stack_set "get_tags" answer ;;
  result <- tag_stack_get "get_tags" ;;
  return_ result.

Definition get_related_tags_for_a_tag
    (tag_names : pyarg)
    (realtime_start realtime_end : option string)
    (exclude_tag_names : option (list string))
    (tag_group_id search_text : option string)
    (limit offset : option Z)
    (order_by sort_order : option string) : method :=
  let url_prefix := "related_tags?tag_names=" in
  url_prefix <-
    try_except_TypeError
      (s <- eval (py_join ";" tag_names) ;;
       next (url_prefix +:+ s))
      (py_print "tag_names must be list or tuple" ;;
       next url_prefix) ;;
  let optional_args :=
    [ ("&realtime_start=", PStr <$> realtime_start);
      ("&realtime_end=", PStr <$> realtime_end);
      ("&exclude_tag_names=", PList <$> exclude_tag_names);
      ("&tag_group_id=", PStr <$> tag_group_id);
      ("&search_text=", PStr <$> search_text);
      ("&limit=", PInt <$> limit);
      ("&offset=", PInt <$> offset);
      ("&order_by=", PStr <$> order_by);
      ("&sort_order=", PStr <$> sort_order) ] in
  let url := _add_optional_params url_prefix optional_args in
  answer <- fetch_data url ;;
  tag_stack_set "get_related_tags_for_a_tag" answer ;;
  result <- tag_stack_get "get_related_tags_for_a_tag" ;;
  return_ result.

(** The statements after [return] are kept as written: they read
    [tag_group_id] and [search_text], which are neither parameters of
    this method nor defined anywhere in the module. *)
Definition get_series_matching_tags
    (tag_names : pyarg)
    (exclude_tag_names : option (list string))
    (realtime_start realtime_end : option string)
    (limit offset : option Z)
    (order_by sort_order : option string) : method :=
  let url_prefix := "tags/series?tag_names=" in
  url_prefix <-
    try_except_TypeError
      (s <- eval (py_join ";" tag_names) ;;
       next (url_prefix +:+ s))
      (py_print "tag_names must be list or tuple" ;;
       next url_prefix) ;;
  realtime_period <- get_realtime_date realtime_start realtime_end ;;
  let url_prefix := url_prefix +:+ realtime_period in
  answer <- fetch_data url_prefix ;;
  tag_stack_set "get_series_matching_tags" answer ;;
  result <- tag_stack_get "get_series_matching_tags" ;;
  return_ result ;;
  tag_group_id <- unbound_name "tag_group_id" ;;
  search_text <- unbound_name "search_text" ;;
  let optional_args :=
    [ ("&realtime_start=", PStr <$> realtime_start);
      ("&realtime_end=", PStr <$> realtime_end);
      ("&exclude_tag_names=", PList <$> exclude_tag_names);
      ("&tag_group_id=", PStr <$> tag_group_id);
      ("&search_text=", PStr <$> search_text);
      ("&limit=", PInt <$> limit);
      ("&offset=", PInt <$> offset);
      ("&order_by=", PStr <$> order_by);
      ("&sort_order=", PStr <$> sort_order) ] in
  let url := _add_optional_params url_prefix optional_args in
  next tt.

End Classes.

(** ** Calls of the public methods *)

(** One constructor per public method, carrying its arguments in the
    order of the signature. *)
Inductive invocation : Type :=
  | Get_all_sources
      (realtime_start realtime_end : option string)
      (limit offset : option Z)
      (order_by sort_order : option string)
  | Get_a_source
      (source_id : pyval)
      (realtime_start realtime_end : option string)
  | Get_releases_for_a_source
      (source_id : pyval)
      (realtime_start realtime_end : option string)
      (limit offset : option Z)
      (order_by sort_order : option string)
  | Get_tags
      (realtime_start realtime_end : option string)
      (tag_names : option (list string))
      (tag_group_id search_text : option string)
      (limit offset : option Z)
      (order_by sort_order : option string)
  | Get_related_tags_for_a_tag
      (tag_names : pyarg)
      (realtime_start realtime_end : option string)
      (exclude_tag_names : option (list string))
      (tag_group_id search_text : option string)
      (limit offset : option Z)
      (order_by sort_order : option string)
  | Get_series_matching_tags
      (tag_names : pyarg)
      (exclude_tag_names : option (list string))
      (realtime_start realtime_end : option string)
      (limit offset : option Z)
      (order_by sort_order : option string).

(** The two result dictionaries of an instance. *)
Inductive stack_name : Type := Source_stack | Tag_stack.

Definition method_name (c : invocation) : string :=
  match c with
  | Get_all_sources _ _ _ _ _ _ => "get_all_sources"
  | Get_a_source _ _ _ => "get_a_source"
  | Get_releases_for_a_source _ _ _ _ _ _ _ => "get_releases_for_a_source"
  | Get_tags _ _ _ _ _ _ _ _ _ => "get_tags"
  | Get_related_tags_for_a_tag _ _ _ _ _ _ _ _ _ _ => "get_related_tags_for_a_tag"
  | Get_series_matching_tags _ _ _ _ _ _ _ _ => "get_series_matching_tags"
  end.

(** The dictionary a method writes to. *)
Definition stack_of (c : invocation) : stack_name :=
  match c with
  | Get_all_sources _ _ _ _ _ _
  | Get_a_source _ _ _
  | Get_releases_for_a_source _ _ _ _ _ _ _ => Source_stack
  | Get_tags _ _ _ _ _ _ _ _ _
  | Get_related_tags_for_a_tag _ _ _ _ _ _ _ _ _ _
  | Get_series_matching_tags _ _ _ _ _ _ _ _ => Tag_stack
  end.

Section Calls.

Context {json B W : Type} {helpers : Series json B W} {python : Interpreter}.

Definition invoke (c : invocation) : stmt json B W json unit :=
  match c with
  | Get_all_sources rs re l o ob so => get_all_sources rs re l o ob so
  | Get_a_source id rs re => get_a_source id rs re
  | Get_releases_for_a_source id rs re l o ob so =>
      get_releases_for_a_source id rs re l o ob so
  | Get_tags rs re tn tg sx l o ob so => get_tags rs re tn tg sx l o ob so
  | Get_related_tags_for_a_tag tn rs re ex tg sx l o ob so =>
      get_related_tags_for_a_tag tn rs re ex tg sx l o ob so
  | Get_series_matching_tags tn ex rs re l o ob so =>
      get_series_matching_tags tn ex rs re l o ob so
  end.

Definition read (s : stack_name) (o : instance json B) : gmap string json :=
  match s with
  | Source_stack => source_stack o
  | Tag_stack => tag_stack o
  end.

Definition store (s : stack_name) (key : string) (v : json) (o : instance json B)
    : instance json B :=
  match s with
  | Source_stack => mkInstance (base o) (<[key := v]> (source_stack o)) (tag_stack o)
  | Tag_stack => mkInstance (base o) (source_stack o) (<[key := v]> (tag_stack o))
  end.

(** The URL with which a call reaches its fetch step: the first request
    it adds to the log, if it adds one. *)
Definition fetched_url (c : invocation) (st : state json B W) : option string :=
  requests (call (invoke c) st).2 !! length (requests st).

(** The shape the specification gives for every public method, written
    from its words: (build the URL prefix, append the present optional
    parameters,) fetch the URL, keep the result in the mapping under the
    method's name, return it. *)
Definition fetch_store_return (s : stack_name) (name url : string) (st : state json B W)
    : (exn + option json) * state json B W :=
  match _fetch_data url (world st) with
  | (inr answer, w) =>
      (inr (Some answer),
       mkState (store s name answer (self st)) (stdout st) (requests st ++ [url]) w)
  | (inl e, w) =>
      (inl e, mkState (self st) (stdout st) (requests st ++ [url]) w)
  end.

Definition pipeline (s : stack_name) (name url_prefix : string)
    (optional_args : list (string * option param)) (st : state json B W)
    : (exn + option json) * state json B W :=
  fetch_store_return s name (_add_optional_params url_prefix optional_args) st.

End Calls.

(** ** The query-string helpers of [Series] *)

(** How a set optional argument is written into the URL: a [str] as it
    is, an [int] in decimal, a list joined with [;]. *)
Definition render (v : param) : string :=
  match v with
  | PStr s => s
  | PInt n => str_int n
  | PList l => String.concat ";" l
  end.

(** The piece of the query string that one entry of [optional_args]
    contributes. *)
Definition fragment (key : string) (v : option param) : string :=
  match v with
  | None => ""
  | Some p => key +:+ render p
  end.

(** Modelled from the spec: [Series._add_optional_params], which is not
    among the sources.  The mapping from parameter name to optional
    value is filtered to the present entries, and these are concatenated
    onto the URL in the order of the mapping, each as its key followed
    by its value. *)
Fixpoint add_optional_params (url : string) (optional_args : list (string * option param))
    : string :=
  match optional_args with
  | [] => url
  | (key, None) :: rest => add_optional_params url rest
  | (key, Some v) :: rest => add_optional_params (url +:+ key +:+ render v) rest
  end.

(** The attributes [Series.__init__] sets that the window helper reads:
    the default real-time bounds, which the user may reassign. *)
Record series_attrs : Type := mkSeriesAttrs {
  default_realtime_start : string;
  default_realtime_end : string
}.

(** The defaults while the user has not set any (the parameter
    docstrings name them: earliest and latest available). *)
Definition series_init : series_attrs :=
  mkSeriesAttrs "1776-07-04" "9999-12-31".

(** Modelled from the spec: [Series._get_realtime_date], which is not
    among the sources.  The real-time window of the request: each bound
    is the argument when it is given and the instance's default when it
    is [None]. *)
Definition get_realtime_date_window (b : series_attrs)
    (realtime_start realtime_end : option string) : string :=
  "&realtime_start=" +:+ default (default_realtime_start b) realtime_start
  +:+ "&realtime_end=" +:+ default (default_realtime_end b) realtime_end.

(** [Series] with the two helpers above; the transport stays a
    parameter. *)
Definition series_of {json W : Type} (fetch : string -> W -> (exn + json) * W)
    : Series json series_attrs W :=
  {| _add_optional_params := add_optional_params;
     _get_realtime_date := get_realtime_date_window;
     _fetch_data := fetch |}.

(** The interpreter with the bound it has by default (4300 digits,
    in CPython 3.11 and later). *)
#[global] Instance cpython : Interpreter := {| int_max_str_digits := 4300 |}.

(** *** Two services to run the methods against

    The world counts the requests served.  [echo] answers every URL
    with the URL itself; [unreachable] always fails. *)
Definition echo (url : string) (served : nat) : (exn + string) * nat :=
  (inr url, S served).

Definition unreachable (url : string) (served : nat) : (exn + string) * nat :=
  (inl (OtherError "ConnectionError"), S served).

(** A fresh [Tags()] object, nothing printed, nothing requested. *)
Definition fresh : state string series_attrs nat :=
  mkState (init series_init) [] [] 0%nat.

(** ** The keys of the result dictionaries *)

(** The names of the methods of [Sources] and of [Tags]: the keys the
    methods write under. *)
Definition source_methods : gset string :=
  {[ "get_all_sources"; "get_a_source"; "get_releases_for_a_source" ]}.

Definition tag_methods : gset string :=
  {[ "get_tags"; "get_related_tags_for_a_tag"; "get_series_matching_tags" ]}.

(** Each dictionary holds entries under the names of its own class's
    methods only. *)
Definition well_keyed {json B : Type} (o : instance json B) : Prop :=
  dom (source_stack o) ⊆ source_methods ∧ dom (tag_stack o) ⊆ tag_methods.

(** [isinstance(v, str)]. *)
Definition is_str (v : pyval) : bool :=
  match v with
  | PyStr _ => true
  | _ => false
  end.

(** What a call prints.  The two methods that join [tag_names] print
    one fixed line when the join raises [TypeError].  The two methods
    that convert [source_id] print their message when the conversion
    raises [TypeError] and the message can be formatted all the same. *)
Definition printed `{Interpreter} (c : invocation) : list string :=
  match c with
  | Get_related_tags_for_a_tag tn _ _ _ _ _ _ _ _ _
  | Get_series_matching_tags tn _ _ _ _ _ _ _ =>
      match py_join ";" tn with
      | inl TypeError => ["tag_names must be list or tuple"]
      | _ => []
      end
  | Get_a_source id _ _
  | Get_releases_for_a_source id _ _ _ _ _ _ =>
      match py_str id, py_format_s "Unable to cast source_id " " to str" id with
      | inl TypeError, inr message => [message]
      | _, _ => []
      end
  | _ => []
  end.

(** * Properties *)

(** ** Strings and conversions *)

Lemma append_nil_r (s : string) : s +:+ "" = s.
Proof.
  induction s as [|c s IH]; [reflexivity|].
  change (String c (s +:+ "") = String c s). by rewrite IH.
Qed.

Lemma append_assoc (s1 s2 s3 : string) : (s1 +:+ s2) +:+ s3 = s1 +:+ s2 +:+ s3.
Proof.
  induction s1 as [|c s1 IH]; [reflexivity|].
  change (String c ((s1 +:+ s2) +:+ s3) = String c (s1 +:+ s2 +:+ s3)).
  by rewrite IH.
Qed.


(** The characters of a string, put together again, are the string. *)
Lemma chars_cons_nonempty (c : ascii) (rest : string) : chars (String c rest) ≠ [].
Proof.
  cbn. destruct rest; [done|]. destruct (chars _); [done|].
  by destruct (is_continuation _).
Qed.

Lemma chars_concat (s : string) : String.concat "" (chars s) = s.
Proof.
  induction s as [|c rest IH]; [reflexivity|].
  cbn [chars]. destruct rest as [|d r]; [reflexivity|].
  pose proof (chars_cons_nonempty d r) as Hne.
  destruct (chars (String d r)) as [|item items]; [done|]. cbn zeta.
  destruct (is_continuation d).
  - destruct items as [|item' items].
    + cbn in IH. by rewrite IH.
    + change (String c (String.concat "" (item :: item' :: items)) = String c (String d r)).
      by rewrite IH.
  - change (String c (String.concat "" (item :: items)) = String c (String d r)).
    by rewrite IH.
Qed.

Lemma str_items_raises (items : list pyval) (e : exn) :
  str_items items = inl e → e = TypeError.
Proof.
  induction items as [|v rest IH]; [discriminate|].
  destruct v; cbn; try congruence.
  destruct (str_items rest); [|discriminate]. intros [= <-]. by apply IH.
Qed.

Lemma py_join_raises (sep : string) (arg : pyarg) (e : exn) :
  py_join sep arg = inl e → e = TypeError.
Proof.
  destruct arg as [[| | | | | |t items]|items]; cbn; try congruence;
    (destruct (str_items items) eqn:E; [|discriminate]);
    intros [= <-]; by eapply str_items_raises.
Qed.




(** One item that is not a [str] makes the join raise. *)
Lemma str_items_not_str (items : list pyval) :
  Exists (λ v, is_str v = false) items → str_items items = inl TypeError.
Proof.
  induction 1 as [v rest Hv | v rest _ IH].
  - by destruct v.
  - destruct v; cbn; try reflexivity. by rewrite IH.
Qed.

(** A list whose items are all [str] is joined without error. *)
Lemma str_items_strings (names : list string) : str_items (PyStr <$> names) = inr names.
Proof. induction names as [|s names IH]; [reflexivity|]. cbn. by rewrite IH. Qed.

Lemma py_join_strings (sep : string) (names : list string) :
  py_join sep (PyList (PyStr <$> names)) = inr (String.concat sep names).
Proof. cbn. by rewrite str_items_strings. Qed.

(** ** What each method does *)

Section Properties.

Context {json B W : Type} {helpers : Series json B W} {python : Interpreter}.

Implicit Types (st : state json B W) (c : invocation).

(** Run a method down to the fetch, split on what the service answers,
    and read back the entry just written. *)
Ltac run_method :=
  unfold pipeline, fetch_store_return, call, bind, fetch_data,
    source_stack_set, source_stack_get, tag_stack_set, tag_stack_get,
    get_realtime_date, return_, next, store; cbn;
  repeat match goal with
    | |- context [_fetch_data ?u ?w] => destruct (_fetch_data u w) as [[?|?] ?]; cbn
    end;
  rewrite ?lookup_insert_eq; try reflexivity.

Lemma fetch_store_return_requests s name url st :
  requests (fetch_store_return s name url st).2 = requests st ++ [url].
Proof. unfold fetch_store_return. by destruct (_fetch_data url (world st)) as [[?|?] ?]. Qed.

Lemma fetch_store_return_stdout s name url st :
  stdout (fetch_store_return s name url st).2 = stdout st.
Proof. unfold fetch_store_return. by destruct (_fetch_data url (world st)) as [[?|?] ?]. Qed.

Lemma fetch_store_return_result s name url st :
  (fetch_store_return s name url st).1 =
  match (_fetch_data url (world st)).1 with
  | inr answer => inr (Some answer)
  | inl e => inl e
  end.
Proof. unfold fetch_store_return. by destruct (_fetch_data url (world st)) as [[?|?] ?]. Qed.

Lemma get_all_sources_pipeline rs re l o ob so st :
  call (get_all_sources rs re l o ob so) st =
  pipeline Source_stack "get_all_sources" "sources?"
    [ ("&realtime_start=", PStr <$> rs); ("&realtime_end=", PStr <$> re);
      ("&limit=", PInt <$> l); ("&offset=", PInt <$> o);
      ("&order_by=", PStr <$> ob); ("&sort_order=", PStr <$> so) ] st.
Proof. unfold get_all_sources. run_method. Qed.

Lemma get_a_source_pipeline source_id sid rs re st :
  py_str source_id = inr sid →
  call (get_a_source source_id rs re) st =
  pipeline Source_stack "get_a_source" ("source?source_id=" +:+ sid)
    [ ("&realtime_start=", PStr <$> rs); ("&realtime_end=", PStr <$> re) ] st.
Proof.
  intros Hstr. unfold get_a_source, try_except_TypeError, eval.
  rewrite Hstr. run_method.
Qed.

Lemma get_releases_for_a_source_pipeline source_id sid rs re l o ob so st :
  py_str source_id = inr sid →
  call (get_releases_for_a_source source_id rs re l o ob so) st =
  pipeline Source_stack "get_releases_for_a_source" ("source/releases?source_id=" +:+ sid)
    [ ("&realtime_start=", PStr <$> rs); ("&realtime_end=", PStr <$> re);
      ("&limit=", PInt <$> l); ("&offset=", PInt <$> o);
      ("&order_by=", PStr <$> ob); ("&sort_order=", PStr <$> so) ] st.
Proof.
  intros Hstr. unfold get_releases_for_a_source, try_except_TypeError, eval.
  rewrite Hstr. run_method.
Qed.

(** An exception of [str(source_id)] other than [TypeError] is not
    caught. *)
Lemma get_a_source_escapes source_id e rs re st :
  py_str source_id = inl e → e ≠ TypeError →
  call (get_a_source source_id rs re) st = (inl e, st).
Proof.
  intros Hstr Hne.
  unfold get_a_source, try_except_TypeError, eval, call, bind.
  rewrite Hstr. by destruct e.
Qed.

Lemma get_releases_for_a_source_escapes source_id e rs re l o ob so st :
  py_str source_id = inl e → e ≠ TypeError →
  call (get_releases_for_a_source source_id rs re l o ob so) st = (inl e, st).
Proof.
  intros Hstr Hne.
  unfold get_releases_for_a_source, try_except_TypeError, eval, call, bind.
  rewrite Hstr. by destruct e.
Qed.

(** When [str(source_id)] raises [TypeError], the handler formats its
    message with [%s].  If that raises, the exception escapes, now
    outside any [try]. *)
Lemma get_a_source_handler_raises source_id e rs re st :
  py_str source_id = inl TypeError →
  py_format_s "Unable to cast source_id " " to str" source_id = inl e →
  call (get_a_source source_id rs re) st = (inl e, st).
Proof.
  intros Hstr Hfmt.
  unfold get_a_source, try_except_TypeError, eval, call, bind.
  by rewrite Hstr, Hfmt.
Qed.

Lemma get_releases_for_a_source_handler_raises source_id e rs re l o ob so st :
  py_str source_id = inl TypeError →
  py_format_s "Unable to cast source_id " " to str" source_id = inl e →
  call (get_releases_for_a_source source_id rs re l o ob so) st = (inl e, st).
Proof.
  intros Hstr Hfmt.
  unfold get_releases_for_a_source, try_except_TypeError, eval, call, bind.
  by rewrite Hstr, Hfmt.
Qed.

(** If the message can be formatted, it is printed and the method goes
    on with the bare prefix. *)
Lemma get_a_source_handled source_id message rs re st :
  py_str source_id = inl TypeError →
  py_format_s "Unable to cast source_id " " to str" source_id = inr message →
  call (get_a_source source_id rs re) st =
  pipeline Source_stack "get_a_source" "source?source_id="
    [ ("&realtime_start=", PStr <$> rs); ("&realtime_end=", PStr <$> re) ]
    (log_line message st).
Proof.
  intros Hstr Hfmt. unfold get_a_source, try_except_TypeError, eval, py_print.
  unfold call at 1, bind at 1, bind at 1, bind at 1. rewrite Hstr. cbn.
  unfold bind at 1, bind at 1. rewrite Hfmt. run_method.
Qed.

Lemma get_releases_for_a_source_handled source_id message rs re l o ob so st :
  py_str source_id = inl TypeError →
  py_format_s "Unable to cast source_id " " to str" source_id = inr message →
  call (get_releases_for_a_source source_id rs re l o ob so) st =
  pipeline Source_stack "get_releases_for_a_source" "source/releases?source_id="
    [ ("&realtime_start=", PStr <$> rs); ("&realtime_end=", PStr <$> re);
      ("&limit=", PInt <$> l); ("&offset=", PInt <$> o);
      ("&order_by=", PStr <$> ob); ("&sort_order=", PStr <$> so) ]
    (log_line message st).
Proof.
  intros Hstr Hfmt. unfold get_releases_for_a_source, try_except_TypeError, eval, py_print.
  unfold call at 1, bind at 1, bind at 1, bind at 1. rewrite Hstr. cbn.
  unfold bind at 1, bind at 1. rewrite Hfmt. run_method.
Qed.

(** The three ways a source method can go, told apart by its arguments
    alone. *)
Lemma get_a_source_cases source_id rs re :
  (∃ e, ∀ st, call (get_a_source source_id rs re) st = (inl e, st))
  ∨ ∃ url_prefix,
      (∀ st, call (get_a_source source_id rs re) st =
             pipeline Source_stack "get_a_source" url_prefix
               [ ("&realtime_start=", PStr <$> rs); ("&realtime_end=", PStr <$> re) ] st)
      ∨ ∃ message,
          ∀ st, call (get_a_source source_id rs re) st =
                pipeline Source_stack "get_a_source" url_prefix
                  [ ("&realtime_start=", PStr <$> rs); ("&realtime_end=", PStr <$> re) ]
                  (log_line message st).
Proof.
  destruct (py_str source_id) as [e|sid] eqn:Hstr.
  - destruct (decide (e = TypeError)) as [->|Hne].
    + destruct (py_format_s "Unable to cast source_id " " to str" source_id)
        as [e|message] eqn:Hfmt.
      * left. exists e. intros st. by apply get_a_source_handler_raises.
      * right. eexists. right. exists message. intros st.
        by apply get_a_source_handled.
    + left. exists e. intros st. by apply get_a_source_escapes.
  - right. eexists. left. intros st. by apply get_a_source_pipeline.
Qed.

Lemma get_releases_for_a_source_cases source_id rs re l o ob so :
  (∃ e, ∀ st, call (get_releases_for_a_source source_id rs re l o ob so) st = (inl e, st))
  ∨ ∃ url_prefix,
      (∀ st, call (get_releases_for_a_source source_id rs re l o ob so) st =
             pipeline Source_stack "get_releases_for_a_source" url_prefix
               [ ("&realtime_start=", PStr <$> rs); ("&realtime_end=", PStr <$> re);
                 ("&limit=", PInt <$> l); ("&offset=", PInt <$> o);
                 ("&order_by=", PStr <$> ob); ("&sort_order=", PStr <$> so) ] st)
      ∨ ∃ message,
          ∀ st, call (get_releases_for_a_source source_id rs re l o ob so) st =
                pipeline Source_stack "get_releases_for_a_source" url_prefix
                  [ ("&realtime_start=", PStr <$> rs); ("&realtime_end=", PStr <$> re);
                    ("&limit=", PInt <$> l); ("&offset=", PInt <$> o);
                    ("&order_by=", PStr <$> ob); ("&sort_order=", PStr <$> so) ]
                  (log_line message st).
Proof.
  destruct (py_str source_id) as [e|sid] eqn:Hstr.
  - destruct (decide (e = TypeError)) as [->|Hne].
    + destruct (py_format_s "Unable to cast source_id " " to str" source_id)
        as [e|message] eqn:Hfmt.
      * left. exists e. intros st. by apply get_releases_for_a_source_handler_raises.
      * right. eexists. right. exists message. intros st.
        by apply get_releases_for_a_source_handled.
    + left. exists e. intros st. by apply get_releases_for_a_source_escapes.
  - right. eexists. left. intros st. by apply get_releases_for_a_source_pipeline.
Qed.

Lemma get_tags_pipeline rs re tn tg sx l o ob so st :
  call (get_tags rs re tn tg sx l o ob so) st =
  pipeline Tag_stack "get_tags" "tags?"
    [ ("&realtime_start=", PStr <$> rs); ("&realtime_end=", PStr <$> re);
      ("&tag_names=", PList <$> tn); ("&tag_group_id=", PStr <$> tg);
      ("&search_text=", PStr <$> sx); ("&limit=", PInt <$> l);
      ("&offset=", PInt <$> o); ("&order_by=", PStr <$> ob);
      ("&sort_order=", PStr <$> so) ] st.
Proof. unfold get_tags. run_method. Qed.

(** The state in which a tag method reaches its fetch: one line was
    printed if the join raised. *)
Lemma get_related_tags_for_a_tag_pipeline tn rs re ex tg sx l o ob so st :
  call (get_related_tags_for_a_tag tn rs re ex tg sx l o ob so) st =
  pipeline Tag_stack "get_related_tags_for_a_tag"
    ("related_tags?tag_names=" +:+ text_or_empty (py_join ";" tn))
    [ ("&realtime_start=", PStr <$> rs); ("&realtime_end=", PStr <$> re);
      ("&exclude_tag_names=", PList <$> ex); ("&tag_group_id=", PStr <$> tg);
      ("&search_text=", PStr <$> sx); ("&limit=", PInt <$> l);
      ("&offset=", PInt <$> o); ("&order_by=", PStr <$> ob);
      ("&sort_order=", PStr <$> so) ]
    (match py_join ";" tn with
     | inr _ => st
     | inl _ => log_line "tag_names must be list or tuple" st
     end).
Proof.
  unfold get_related_tags_for_a_tag, try_except_TypeError, eval, py_print.
  destruct (py_join ";" tn) as [e|s] eqn:Hjoin.
  - pose proof (py_join_raises _ _ _ Hjoin) as ->. rewrite append_nil_r. run_method.
  - run_method.
Qed.

Lemma get_series_matching_tags_fetch tn ex rs re l o ob so st :
  call (get_series_matching_tags tn ex rs re l o ob so) st =
  fetch_store_return Tag_stack "get_series_matching_tags"
    (("tags/series?tag_names=" +:+ text_or_empty (py_join ";" tn))
       +:+ _get_realtime_date (base (self st)) rs re)
    (match py_join ";" tn with
     | inr _ => st
     | inl _ => log_line "tag_names must be list or tuple" st
     end).
Proof.
  unfold get_series_matching_tags, try_except_TypeError, eval, py_print.
  destruct (py_join ";" tn) as [e|s] eqn:Hjoin.
  - pose proof (py_join_raises _ _ _ Hjoin) as ->. rewrite append_nil_r. run_method.
  - run_method.
Qed.

(** Every call either raises before anything happened, or reaches its
    fetch step, with one URL, in a state that differs from the initial
    one by printed lines at most. *)
Lemma invoke_cases c st :
  (∃ e, call (invoke c) st = (inl e, st)) ∨
  ∃ url st1,
    self st1 = self st ∧ requests st1 = requests st ∧ world st1 = world st ∧
    call (invoke c) st = fetch_store_return (stack_of c) (method_name c) url st1.
Proof.
  destruct c as [rs re l o ob so | id rs re | id rs re l o ob so
                | rs re tn tg sx l o ob so | tn rs re ex tg sx l o ob so
                | tn ex rs re l o ob so]; cbn [invoke stack_of method_name].
  - right. eexists _, st. rewrite get_all_sources_pipeline. by unfold pipeline.
  - destruct (get_a_source_cases id rs re) as [[e He]|[p [Hp|[message Hp]]]].
    + left. by exists e.
    + right. eexists _, st. rewrite Hp. by unfold pipeline.
    + right. eexists _, (log_line message st). rewrite Hp. by unfold pipeline.
  - destruct (get_releases_for_a_source_cases id rs re l o ob so)
      as [[e He]|[p [Hp|[message Hp]]]].
    + left. by exists e.
    + right. eexists _, st. rewrite Hp. by unfold pipeline.
    + right. eexists _, (log_line message st). rewrite Hp. by unfold pipeline.
  - right. eexists _, st. rewrite get_tags_pipeline. by unfold pipeline.
  - right. eexists _, _. rewrite get_related_tags_for_a_tag_pipeline.
    unfold pipeline. split_and!; last reflexivity; by destruct (py_join ";" tn).
  - right. eexists _, _. rewrite get_series_matching_tags_fetch.
    split_and!; last reflexivity; by destruct (py_join ";" tn).
Qed.

Lemma read_store_same s name (v : json) (o : instance json B) :
  read s (store s name v o) = <[name := v]> (read s o).
Proof. by destruct s. Qed.

Lemma read_store_other s s' name k (v : json) (o : instance json B) :
  s' ≠ s ∨ k ≠ name → read s' (store s name v o) !! k = read s' o !! k.
Proof.
  intros Hother. destruct s, s'; cbn; try reflexivity;
    (destruct Hother as [Hne|Hne]; [done|]); by rewrite lookup_insert_ne.
Qed.

(** ** The result dictionaries *)

(** C5.  When a call of a public method returns normally, the value
    [v] it returns (never [None]) is the answer that [_fetch_data] gave
    in this call, to the URL the call asked for; the method's
    dictionary maps the method's name to exactly that [v]; and the
    dictionary is the old one with that single entry written over
    whatever was there before. *)
Theorem result_is_cached c st r st' :
  call (invoke c) st = (inr r, st') →
  ∃ url v,
    fetched_url c st = Some url
    ∧ (_fetch_data url (world st)).1 = inr v
    ∧ r = Some v
    ∧ read (stack_of c) (self st') !! method_name c = Some v
    ∧ read (stack_of c) (self st') = <[method_name c := v]> (read (stack_of c) (self st)).
Proof.
  intros Hcall. unfold fetched_url. rewrite Hcall. cbn [snd]. revert Hcall.
  destruct (invoke_cases c st) as [[e ->] | (url & st1 & Hself & Hreq & Hworld & ->)].
  { discriminate. }
  unfold fetch_store_return. rewrite Hworld, Hreq.
  destruct (_fetch_data url (world st)) as [[e|v] w] eqn:Hfetch; [discriminate|].
  intros [= <- <-]. exists url, v. cbn [self requests].
  rewrite Hfetch, read_store_same, Hself, lookup_insert_eq.
  split_and!; [|done..]. by apply list_lookup_middle.
Qed.

(** C9.  A call that returns normally leaves the attributes set by
    [Series.__init__] as they were, and changes no entry of either
    result dictionary except the one under its own name in its own
    dictionary.  (The instance has no further attributes.) *)
Theorem other_entries_untouched c st r st' :
  call (invoke c) st = (inr r, st') →
  base (self st') = base (self st)
  ∧ ∀ s k, s ≠ stack_of c ∨ k ≠ method_name c →
      read s (self st') !! k = read s (self st) !! k.
Proof.
  intros Hcall.
  destruct (invoke_cases c st) as [[e Hraise] | (url & st1 & Hself & _ & _ & Heq)].
  { congruence. }
  rewrite Heq in Hcall. unfold fetch_store_return in Hcall.
  destruct (_fetch_data url (world st1)) as [[e|v] w]; [discriminate|].
  injection Hcall as <- <-. cbn [self]. rewrite <- Hself. split.
  - by destruct (stack_of c).
  - intros s k Hother. by apply read_store_other.
Qed.

(** C6.  If the fetch step of a call raises [e], the call raises the
    same [e], the service was asked exactly once, and the object is as
    it was before the call: nothing was written under the method's
    name. *)
Theorem fetch_error_propagates c st url e w' :
  fetched_url c st = Some url →
  _fetch_data url (world st) = (inl e, w') →
  (call (invoke c) st).1 = inl e
  ∧ self (call (invoke c) st).2 = self st
  ∧ requests (call (invoke c) st).2 = requests st ++ [url]
  ∧ world (call (invoke c) st).2 = w'.
Proof.
  unfold fetched_url. intros Hurl Hfetch.
  destruct (invoke_cases c st) as [[e0 Hraise] | (url0 & st1 & Hself & Hreq & Hworld & Heq)].
  { rewrite Hraise in Hurl. cbn in Hurl.
    rewrite lookup_ge_None_2 in Hurl; [discriminate|lia]. }
  rewrite Heq in Hurl |- *.
  rewrite fetch_store_return_requests, Hreq in Hurl.
  rewrite list_lookup_middle in Hurl by reflexivity. injection Hurl as ->.
  unfold fetch_store_return. rewrite Hworld, Hfetch. cbn. by rewrite Hself, Hreq.
Qed.

(** ** The required argument *)


(** C4, at a [source_id] whose conversion raises [TypeError]: the error
    escapes from both source methods, and the state is untouched, so no
    message was printed and nothing was fetched. *)
Theorem failed_source_id_conversion_escapes rs re l o ob so st :
  call (get_a_source (PyObj None) rs re) st = (inl TypeError, st)
  ∧ call (get_releases_for_a_source (PyObj None) rs re l o ob so) st = (inl TypeError, st).
Proof.
  split.
  - by apply get_a_source_handler_raises.
  - by apply get_releases_for_a_source_handler_raises.
Qed.

(** The two tag methods, by contrast, print their (constant) message
    and go on to fetch with the bare prefix. *)
Lemma failed_join_is_printed tn ex rs re l o ob so e st :
  py_join ";" tn = inl e →
  let out := call (get_series_matching_tags tn ex rs re l o ob so) st in
  stdout out.2 = stdout st ++ ["tag_names must be list or tuple"]
  ∧ requests out.2 =
      requests st ++ ["tags/series?tag_names=" +:+ _get_realtime_date (base (self st)) rs re].
Proof.
  intros Hjoin out. subst out. rewrite get_series_matching_tags_fetch.
  rewrite fetch_store_return_stdout, fetch_store_return_requests, Hjoin.
  cbn. by rewrite append_nil_r.
Qed.

(** C3.  When [tag_names] is a list of strings, both methods extend
    their prefix with the strings in their order, one [;] between
    neighbours, and do not print.  [get_related_tags_for_a_tag] asks
    for what [_add_optional_params] makes of that prefix;
    [get_series_matching_tags] asks for it followed by the real-time
    window. *)
Theorem tag_names_are_joined names rs re ex tg sx l o ob so st :
  String.concat ";" [] = ""
  ∧ (∀ a, String.concat ";" [a] = a)
  ∧ (∀ a b rest,
       String.concat ";" (a :: b :: rest) = a +:+ ";" +:+ String.concat ";" (b :: rest))
  ∧ call (get_related_tags_for_a_tag (PyList (PyStr <$> names)) rs re ex tg sx l o ob so) st =
      pipeline Tag_stack "get_related_tags_for_a_tag"
        ("related_tags?tag_names=" +:+ String.concat ";" names)
        [ ("&realtime_start=", PStr <$> rs); ("&realtime_end=", PStr <$> re);
          ("&exclude_tag_names=", PList <$> ex); ("&tag_group_id=", PStr <$> tg);
          ("&search_text=", PStr <$> sx); ("&limit=", PInt <$> l);
          ("&offset=", PInt <$> o); ("&order_by=", PStr <$> ob);
          ("&sort_order=", PStr <$> so) ] st
  ∧ call (get_series_matching_tags (PyList (PyStr <$> names)) ex rs re l o ob so) st =
      fetch_store_return Tag_stack "get_series_matching_tags"
        ("tags/series?tag_names=" +:+ String.concat ";" names
           +:+ _get_realtime_date (base (self st)) rs re) st.
Proof.
  split_and!; try reflexivity.
  - by rewrite get_related_tags_for_a_tag_pipeline, py_join_strings.
  - rewrite get_series_matching_tags_fetch, py_join_strings.
    cbn [text_or_empty]. by rewrite append_assoc.
Qed.

(** ** The statements after [return] *)

(** C8.  Two calls of [get_series_matching_tags] that agree on
    [tag_names], [realtime_start] and [realtime_end] end in the same
    way, in the same state and so with the same URL fetched, whatever
    the other five arguments are.  The call asks for one URL and ends
    as that fetch ends: an exception that escapes, a [NameError] in
    particular, is one that the fetch raised, not one from the
    statements that follow [return]. *)
Theorem ignored_arguments_of_series_matching_tags
    tn rs re ex l o ob so ex' l' o' ob' so' st :
  call (get_series_matching_tags tn ex rs re l o ob so) st =
    call (get_series_matching_tags tn ex' rs re l' o' ob' so') st
  ∧ ∃ url,
      requests (call (get_series_matching_tags tn ex rs re l o ob so) st).2 =
        requests st ++ [url]
      ∧ (call (get_series_matching_tags tn ex rs re l o ob so) st).1 =
        match (_fetch_data url (world st)).1 with
        | inr answer => inr (Some answer)
        | inl e => inl e
        end
      ∧ ∀ name,
          (call (get_series_matching_tags tn ex rs re l o ob so) st).1 = inl (NameError name) →
          (_fetch_data url (world st)).1 = inl (NameError name).
Proof.
  split.
  { by rewrite !get_series_matching_tags_fetch. }
  rewrite get_series_matching_tags_fetch. eexists.
  rewrite fetch_store_return_requests, fetch_store_return_result.
  assert (∀ st1, st1 = match py_join ";" tn with
                       | inr _ => st
                       | inl _ => log_line "tag_names must be list or tuple" st
                       end →
                 requests st1 = requests st ∧ world st1 = world st) as Hsame.
  { intros st1 ->. by destruct (py_join ";" tn). }
  destruct (Hsame _ eq_refl) as [-> ->]. split_and!; [reflexivity..|].
  intros name. destruct (_fetch_data _ (world st)) as [[e|v] w]; cbn; congruence.
Qed.

End Properties.

(** ** The query string *)

Lemma add_optional_params_app (url : string) (optional_args : list (string * option param)) :
  add_optional_params url optional_args = url +:+ add_optional_params "" optional_args.
Proof.
  revert url. induction optional_args as [|[key [v|]] rest IH]; intros url.
  - by rewrite append_nil_r.
  - cbn [add_optional_params]. rewrite IH, (IH ("" +:+ _)).
    change ("" +:+ key +:+ render v) with (key +:+ render v).
    by rewrite !append_assoc.
  - apply IH.
Qed.

(** The helper appends, in order, the fragment of every entry; an unset
    entry has the empty fragment. *)
Lemma add_optional_params_fragments (url : string)
    (optional_args : list (string * option param)) :
  add_optional_params url optional_args =
  url +:+ foldr (λ entry tail, fragment entry.1 entry.2 +:+ tail) "" optional_args.
Proof.
  rewrite add_optional_params_app. f_equal.
  induction optional_args as [|[key [v|]] rest IH]; [reflexivity| |exact IH].
  cbn [add_optional_params foldr fst snd fragment]. rewrite add_optional_params_app, IH.
  change ("" +:+ key +:+ render v) with (key +:+ render v).
  by rewrite !append_assoc.
Qed.

Section Query.

Context {json W : Type} (fetch : string → W → (exn + json) * W).

Implicit Types (st : state json series_attrs W).

(** C1.  The URL each of the five methods asks for is its prefix
    followed by one fragment per optional parameter, in the order of the
    signature.  The fragment of a parameter that is [None] is empty, so
    the parameter is left out; the fragment of a parameter that is set
    is its key followed by the value: a [str] as given, an [int] in
    decimal, a list joined with [;]. *)
Theorem optional_parameters_in_url st source_id sid tag_names rs re tn ex tg sx l o ob so :
  py_str source_id = inr sid →
  (∀ key, fragment key None = "")
  ∧ (∀ key s, fragment key (Some (PStr s)) = key +:+ s)
  ∧ (∀ key n, fragment key (Some (PInt n)) = key +:+ str_int n)
  ∧ (∀ key names, fragment key (Some (PList names)) = key +:+ String.concat ";" names)
  ∧ requests (call (get_all_sources (helpers := series_of fetch) rs re l o ob so) st).2 =
      requests st ++
      [ "sources?"
        +:+ fragment "&realtime_start=" (PStr <$> rs)
        +:+ fragment "&realtime_end=" (PStr <$> re)
        +:+ fragment "&limit=" (PInt <$> l)
        +:+ fragment "&offset=" (PInt <$> o)
        +:+ fragment "&order_by=" (PStr <$> ob)
        +:+ fragment "&sort_order=" (PStr <$> so) ]
  ∧ requests (call (get_a_source (helpers := series_of fetch) source_id rs re) st).2 =
      requests st ++
      [ "source?source_id=" +:+ sid
        +:+ fragment "&realtime_start=" (PStr <$> rs)
        +:+ fragment "&realtime_end=" (PStr <$> re) ]
  ∧ requests (call (get_releases_for_a_source (helpers := series_of fetch)
                      source_id rs re l o ob so) st).2 =
      requests st ++
      [ "source/releases?source_id=" +:+ sid
        +:+ fragment "&realtime_start=" (PStr <$> rs)
        +:+ fragment "&realtime_end=" (PStr <$> re)
        +:+ fragment "&limit=" (PInt <$> l)
        +:+ fragment "&offset=" (PInt <$> o)
        +:+ fragment "&order_by=" (PStr <$> ob)
        +:+ fragment "&sort_order=" (PStr <$> so) ]
  ∧ requests (call (get_tags (helpers := series_of fetch) rs re tn tg sx l o ob so) st).2 =
      requests st ++
      [ "tags?"
        +:+ fragment "&realtime_start=" (PStr <$> rs)
        +:+ fragment "&realtime_end=" (PStr <$> re)
        +:+ fragment "&tag_names=" (PList <$> tn)
        +:+ fragment "&tag_group_id=" (PStr <$> tg)
        +:+ fragment "&search_text=" (PStr <$> sx)
        +:+ fragment "&limit=" (PInt <$> l)
        +:+ fragment "&offset=" (PInt <$> o)
        +:+ fragment "&order_by=" (PStr <$> ob)
        +:+ fragment "&sort_order=" (PStr <$> so) ]
  ∧ requests (call (get_related_tags_for_a_tag (helpers := series_of fetch)
                      tag_names rs re ex tg sx l o ob so) st).2 =
      requests st ++
      [ "related_tags?tag_names=" +:+ text_or_empty (py_join ";" tag_names)
        +:+ fragment "&realtime_start=" (PStr <$> rs)
        +:+ fragment "&realtime_end=" (PStr <$> re)
        +:+ fragment "&exclude_tag_names=" (PList <$> ex)
        +:+ fragment "&tag_group_id=" (PStr <$> tg)
        +:+ fragment "&search_text=" (PStr <$> sx)
        +:+ fragment "&limit=" (PInt <$> l)
        +:+ fragment "&offset=" (PInt <$> o)
        +:+ fragment "&order_by=" (PStr <$> ob)
        +:+ fragment "&sort_order=" (PStr <$> so) ].
Proof.
  intros Hstr. split_and!; try reflexivity.
  - rewrite get_all_sources_pipeline. unfold pipeline.
    rewrite fetch_store_return_requests. cbn [_add_optional_params series_of].
    rewrite add_optional_params_fragments. cbn [foldr fst snd].
    by rewrite append_nil_r.
  - rewrite (get_a_source_pipeline _ _ _ _ _ Hstr). unfold pipeline.
    rewrite fetch_store_return_requests. cbn [_add_optional_params series_of].
    rewrite add_optional_params_fragments. cbn [foldr fst snd].
    by rewrite append_nil_r, append_assoc.
  - rewrite (get_releases_for_a_source_pipeline _ _ _ _ _ _ _ _ _ Hstr). unfold pipeline.
    rewrite fetch_store_return_requests. cbn [_add_optional_params series_of].
    rewrite add_optional_params_fragments. cbn [foldr fst snd].
    by rewrite append_nil_r, append_assoc.
  - rewrite get_tags_pipeline. unfold pipeline.
    rewrite fetch_store_return_requests. cbn [_add_optional_params series_of].
    rewrite add_optional_params_fragments. cbn [foldr fst snd].
    by rewrite append_nil_r.
  - rewrite get_related_tags_for_a_tag_pipeline. unfold pipeline.
    rewrite fetch_store_return_requests. cbn [_add_optional_params series_of].
    rewrite add_optional_params_fragments. cbn [foldr fst snd].
    rewrite append_nil_r, append_assoc. by destruct (py_join ";" tag_names).
Qed.

(** With the query-string helper above, the joined names of
    [get_related_tags_for_a_tag] sit between the prefix and the
    optional parameters. *)
Lemma tag_names_in_query st names rs re ex tg sx l o ob so :
  requests (call (get_related_tags_for_a_tag (helpers := series_of fetch)
                    (PyList (PyStr <$> names)) rs re ex tg sx l o ob so) st).2 =
  requests st ++
  [ "related_tags?tag_names=" +:+ String.concat ";" names
    +:+ add_optional_params ""
          [ ("&realtime_start=", PStr <$> rs); ("&realtime_end=", PStr <$> re);
            ("&exclude_tag_names=", PList <$> ex); ("&tag_group_id=", PStr <$> tg);
            ("&search_text=", PStr <$> sx); ("&limit=", PInt <$> l);
            ("&offset=", PInt <$> o); ("&order_by=", PStr <$> ob);
            ("&sort_order=", PStr <$> so) ] ].
Proof.
  rewrite get_related_tags_for_a_tag_pipeline. unfold pipeline.
  rewrite fetch_store_return_requests, py_join_strings.
  cbn [_add_optional_params series_of text_or_empty].
  by rewrite add_optional_params_app, append_assoc.
Qed.

(** C7.  Every call of [get_series_matching_tags] asks for the prefix
    [tags/series?tag_names=], then the joined tag names, then the
    real-time window.  For a list of strings the joined names are the
    strings in their order with one [;] between neighbours; for a plain
    [str] they are its characters, joined likewise; when joining raises
    there are none.  In the window each bound is the argument when it is
    given and the instance's default when it is [None]; on a new object
    with both bounds [None] the window is the one from 1776-07-04 to
    9999-12-31. *)
Theorem series_matching_tags_url st tag_names names s ex rs re l o ob so :
  let window :=
    "&realtime_start=" +:+ default (default_realtime_start (base (self st))) rs
    +:+ "&realtime_end=" +:+ default (default_realtime_end (base (self st))) re in
  let asked tn :=
    requests (call (get_series_matching_tags (helpers := series_of fetch)
                      tn ex rs re l o ob so) st).2 in
  asked tag_names =
    requests st ++
    [ "tags/series?tag_names=" +:+ text_or_empty (py_join ";" tag_names) +:+ window ]
  ∧ asked (PyList (PyStr <$> names)) =
    requests st ++ [ "tags/series?tag_names=" +:+ String.concat ";" names +:+ window ]
  ∧ asked (PyVal (PyStr s)) =
    requests st ++ [ "tags/series?tag_names=" +:+ String.concat ";" (chars s) +:+ window ]
  ∧ asked (PyVal PyNone) = requests st ++ [ "tags/series?tag_names=" +:+ window ]
  ∧ asked (PyList ((PyStr <$> names) ++ [PyInt 0])) =
    requests st ++ [ "tags/series?tag_names=" +:+ window ]
  ∧ String.concat ";" [] = ""
  ∧ (∀ a, String.concat ";" [a] = a)
  ∧ (∀ a b rest,
       String.concat ";" (a :: b :: rest) = a +:+ ";" +:+ String.concat ";" (b :: rest))
  ∧ requests (call (get_series_matching_tags (helpers := series_of fetch)
                      (PyList (PyStr <$> names)) ex None None l o ob so)
                   (mkState (init series_init) [] [] (world st))).2 =
    [ "tags/series?tag_names=" +:+ String.concat ";" names
      +:+ "&realtime_start=1776-07-04&realtime_end=9999-12-31" ].
Proof.
  intros window asked.
  assert (∀ tn, asked tn =
                requests st ++
                [ "tags/series?tag_names=" +:+ text_or_empty (py_join ";" tn) +:+ window ])
    as Hasked.
  { intros tn. subst asked window. cbn beta.
    rewrite get_series_matching_tags_fetch, fetch_store_return_requests.
    cbn [_get_realtime_date series_of]. unfold get_realtime_date_window.
    rewrite append_assoc. by destruct (py_join ";" tn). }
  split_and!; try reflexivity.
  - apply Hasked.
  - by rewrite Hasked, py_join_strings.
  - by rewrite Hasked.
  - by rewrite Hasked.
  - rewrite Hasked. cbn [py_join].
    rewrite str_items_not_str; [done|].
    apply Exists_app. right. by apply Exists_cons_hd.
  - rewrite get_series_matching_tags_fetch, fetch_store_return_requests, py_join_strings.
    cbn [_get_realtime_date series_of text_or_empty]. by rewrite append_assoc.
Qed.

End Query.

(** ** Runs against the two services *)

(** C2, at [get_series_matching_tags(["usa"], limit=5)] on a fresh
    object: the URL asked for carries the tag name and the default
    window but no [&limit=5], whereas the pipeline of the specification,
    run on the optional arguments of this call, asks for a URL that
    ends in it. *)
Theorem series_matching_tags_skips_optional_parameters :
  requests (call (get_series_matching_tags (helpers := series_of echo)
                    (PyList [PyStr "usa"]) None None None (Some 5%Z) None None None)
                 fresh).2 =
    [ "tags/series?tag_names=usa&realtime_start=1776-07-04&realtime_end=9999-12-31" ]
  ∧ requests (pipeline (helpers := series_of echo) Tag_stack "get_series_matching_tags"
                "tags/series?tag_names=usa"
                [ ("&realtime_start=", None); ("&realtime_end=", None);
                  ("&exclude_tag_names=", None); ("&limit=", Some (PInt 5));
                  ("&offset=", None); ("&order_by=", None); ("&sort_order=", None) ]
                fresh).2 =
    [ "tags/series?tag_names=usa&limit=5" ].
Proof. split; vm_compute; reflexivity. Qed.

Lemma result_is_cached_witness :
  let c := Get_a_source (PyInt 1) None (Some "2020-01-01") in
  let out := call (invoke (helpers := series_of echo) c) fresh in
  out = (inr (Some "source?source_id=1&realtime_end=2020-01-01"), out.2)
  ∧ ∃ url v,
      fetched_url (helpers := series_of echo) c fresh = Some url
      ∧ (echo url (world fresh)).1 = inr v
      ∧ Some "source?source_id=1&realtime_end=2020-01-01" = Some v
      ∧ read (stack_of c) (self out.2) !! method_name c = Some v
      ∧ read (stack_of c) (self out.2) =
        <[method_name c := v]> (read (stack_of c) (self fresh)).
Proof.
  intros c out. split; [reflexivity|].
  apply (result_is_cached (helpers := series_of echo) c fresh). reflexivity.
Defined.



Lemma other_entries_untouched_witness :
  let c := Get_tags None None (Some ["usa"; "gdp"]) None None (Some 10%Z) None None None in
  let out := call (invoke (helpers := series_of echo) c) fresh in
  out = (inr (Some "tags?&tag_names=usa;gdp&limit=10"), out.2)
  ∧ base (self out.2) = base (self fresh)
  ∧ ∀ s k, s ≠ stack_of c ∨ k ≠ method_name c →
      read s (self out.2) !! k = read s (self fresh) !! k.
Proof.
  intros c out. split; [reflexivity|].
  apply (other_entries_untouched (helpers := series_of echo) c fresh
           (Some "tags?&tag_names=usa;gdp&limit=10")).
  reflexivity.
Defined.

Lemma fetch_error_propagates_witness :
  let c := Get_all_sources None None (Some 3%Z) None None None in
  let out := call (invoke (helpers := series_of unreachable) c) fresh in
  fetched_url (helpers := series_of unreachable) c fresh = Some "sources?&limit=3"
  ∧ unreachable "sources?&limit=3" (world fresh) = (inl (OtherError "ConnectionError"), 1%nat)
  ∧ out.1 = inl (OtherError "ConnectionError")
  ∧ self out.2 = self fresh
  ∧ requests out.2 = requests fresh ++ ["sources?&limit=3"]
  ∧ world out.2 = 1%nat.
Proof.
  intros c out. split; [reflexivity|]. split; [reflexivity|].
  apply (fetch_error_propagates (helpers := series_of unreachable) c fresh);
    reflexivity.
Defined.

Lemma optional_parameters_in_url_witness :
  py_str (PyInt 7) = inr "7"
  ∧ requests (call (get_a_source (helpers := series_of echo)
                      (PyInt 7) (Some "2001-02-03") None) fresh).2 =
    requests fresh ++
    [ "source?source_id=" +:+ "7"
      +:+ fragment "&realtime_start=" (PStr <$> Some "2001-02-03")
      +:+ fragment "&realtime_end=" (PStr <$> None) ].
Proof.
  split; [reflexivity|].
  apply (optional_parameters_in_url echo fresh (PyInt 7) "7" (PyList [])
           (Some "2001-02-03") None None None None None None None None None).
  reflexivity.
Defined.

(** * Further properties of the two classes *)

Section Behaviour.

Context {json B W : Type} {helpers : Series json B W} {python : Interpreter}.

Implicit Types (st : state json B W) (c : invocation).

(** A call that returns normally returns a value and has written it,
    and nothing else, into the object. *)
Lemma normal_return c st r st' :
  call (invoke c) st = (inr r, st') →
  ∃ v, r = Some v ∧ self st' = store (stack_of c) (method_name c) v (self st).
Proof.
  intros Hcall.
  destruct (invoke_cases c st) as [[e Hraise] | (url & st1 & Hself & _ & _ & Heq)].
  { congruence. }
  rewrite Heq in Hcall. unfold fetch_store_return in Hcall.
  destruct (_fetch_data url (world st1)) as [[e|v] w]; [discriminate|].
  injection Hcall as <- <-. exists v. by rewrite <- Hself.
Qed.

(** A call that raises has written nothing. *)
Lemma raise_keeps_self c st e :
  (call (invoke c) st).1 = inl e → self (call (invoke c) st).2 = self st.
Proof.
  destruct (invoke_cases c st) as [[e0 Hraise] | (url & st1 & Hself & _ & _ & Heq)].
  { by rewrite Hraise. }
  rewrite Heq. unfold fetch_store_return.
  by destruct (_fetch_data url (world st1)) as [[e'|v] w].
Qed.

(** ** Tag names that cannot be joined *)

(** X1.  When joining [tag_names] raises, neither tag method raises:
    each prints the line [tag_names must be list or tuple] once and
    goes on as usual with a prefix that carries no tag name. *)
Theorem unjoinable_tag_names_are_reported tn e rs re ex tg sx l o ob so st :
  py_join ";" tn = inl e →
  call (get_related_tags_for_a_tag tn rs re ex tg sx l o ob so) st =
    pipeline Tag_stack "get_related_tags_for_a_tag" "related_tags?tag_names="
      [ ("&realtime_start=", PStr <$> rs); ("&realtime_end=", PStr <$> re);
        ("&exclude_tag_names=", PList <$> ex); ("&tag_group_id=", PStr <$> tg);
        ("&search_text=", PStr <$> sx); ("&limit=", PInt <$> l);
        ("&offset=", PInt <$> o); ("&order_by=", PStr <$> ob);
        ("&sort_order=", PStr <$> so) ]
      (log_line "tag_names must be list or tuple" st)
  ∧ call (get_series_matching_tags tn ex rs re l o ob so) st =
    fetch_store_return Tag_stack "get_series_matching_tags"
      ("tags/series?tag_names=" +:+ _get_realtime_date (base (self st)) rs re)
      (log_line "tag_names must be list or tuple" st).
Proof.
  intros Hjoin. split.
  - rewrite get_related_tags_for_a_tag_pipeline, Hjoin. cbn [text_or_empty].
    by rewrite append_nil_r.
  - rewrite get_series_matching_tags_fetch, Hjoin. cbn [text_or_empty].
    by rewrite append_nil_r.
Qed.

(** X2.  One item of [tag_names] that is not a [str] is enough for the
    request to go out without any tag name: the names that are strings
    are dropped with it, and the line is printed. *)
Theorem one_bad_tag_name_drops_all items rs re ex tg sx l o ob so st :
  Exists (λ v, is_str v = false) items →
  let related := call (get_related_tags_for_a_tag (PyList items) rs re ex tg sx l o ob so) st in
  let series := call (get_series_matching_tags (PyList items) ex rs re l o ob so) st in
  requests related.2 =
    requests st ++
    [ _add_optional_params "related_tags?tag_names="
        [ ("&realtime_start=", PStr <$> rs); ("&realtime_end=", PStr <$> re);
          ("&exclude_tag_names=", PList <$> ex); ("&tag_group_id=", PStr <$> tg);
          ("&search_text=", PStr <$> sx); ("&limit=", PInt <$> l);
          ("&offset=", PInt <$> o); ("&order_by=", PStr <$> ob);
          ("&sort_order=", PStr <$> so) ] ]
  ∧ stdout related.2 = stdout st ++ ["tag_names must be list or tuple"]
  ∧ requests series.2 =
    requests st ++ ["tags/series?tag_names=" +:+ _get_realtime_date (base (self st)) rs re]
  ∧ stdout series.2 = stdout st ++ ["tag_names must be list or tuple"].
Proof.
  intros Hbad related series. subst related series.
  assert (py_join ";" (PyList items) = inl TypeError) as Hjoin.
  { cbn. by rewrite (str_items_not_str _ Hbad). }
  rewrite get_related_tags_for_a_tag_pipeline, get_series_matching_tags_fetch.
  unfold pipeline.
  rewrite !fetch_store_return_requests, !fetch_store_return_stdout, Hjoin.
  cbn [text_or_empty log_line requests stdout]. by rewrite append_nil_r.
Qed.

(** X3.  A plain [str] passed as [tag_names] is taken apart: the call
    is the same as the call on the list of its characters, so the
    prefix carries the characters with a [;] between each two, and
    nothing is printed.  The characters are those of the text (a
    character of several bytes stays whole), and put together again
    they are the string. *)
Theorem str_tag_names_is_split s rs re ex tg sx l o ob so st :
  call (get_related_tags_for_a_tag (PyVal (PyStr s)) rs re ex tg sx l o ob so) st =
    call (get_related_tags_for_a_tag (PyList (PyStr <$> chars s)) rs re ex tg sx l o ob so) st
  ∧ call (get_series_matching_tags (PyVal (PyStr s)) ex rs re l o ob so) st =
    call (get_series_matching_tags (PyList (PyStr <$> chars s)) ex rs re l o ob so) st
  ∧ call (get_series_matching_tags (PyVal (PyStr s)) ex rs re l o ob so) st =
    fetch_store_return Tag_stack "get_series_matching_tags"
      ("tags/series?tag_names=" +:+ String.concat ";" (chars s)
         +:+ _get_realtime_date (base (self st)) rs re) st
  ∧ String.concat "" (chars s) = s
  ∧ chars "usa" = ["u"; "s"; "a"]
  ∧ chars "né" = ["n"; "é"].
Proof.
  assert (py_join ";" (PyVal (PyStr s)) = inr (String.concat ";" (chars s))) as Hs
    by reflexivity.
  split_and!; [| | | |reflexivity..].
  - by rewrite !get_related_tags_for_a_tag_pipeline, py_join_strings, Hs.
  - by rewrite !get_series_matching_tags_fetch, py_join_strings, Hs.
  - rewrite get_series_matching_tags_fetch, Hs. cbn [text_or_empty].
    by rewrite append_assoc.
  - apply chars_concat.
Qed.

(** ** Printing, requests and exceptions *)

(** X4.  What a call prints depends on its arguments (and the
    interpreter's bound) only.  [get_all_sources] and [get_tags] never
    print.  The two methods that convert [source_id] print nothing when
    it is [None], an [int], a [bool], a [str] or an object whose
    conversion ends the same way each time; they print their message
    for a one-item tuple whose own conversion raises [TypeError], and
    for an object whose conversion raises [TypeError] first and
    succeeds then.  The two methods that join [tag_names] print their
    line exactly when the join raises [TypeError]. *)
Theorem stdout_after_call c st :
  stdout (call (invoke c) st).2 = stdout st ++ printed c
  ∧ match c with
    | Get_all_sources _ _ _ _ _ _
    | Get_tags _ _ _ _ _ _ _ _ _ => printed c = []
    | Get_a_source id _ _
    | Get_releases_for_a_source id _ _ _ _ _ _ =>
        match id with
        | PyNone | PyInt _ | PyBool _ | PyStr _ | PyObj _ => printed c = []
        | PyTuple (inl TypeError) [PyStr text]
        | PyOther (inl TypeError) (inr text) =>
            printed c = ["Unable to cast source_id " +:+ text +:+ " to str"]
        | _ => True
        end
    | Get_related_tags_for_a_tag tn _ _ _ _ _ _ _ _ _
    | Get_series_matching_tags tn _ _ _ _ _ _ _ =>
        printed c = match py_join ";" tn with
                    | inl _ => ["tag_names must be list or tuple"]
                    | inr _ => []
                    end
    end.
Proof.
  split.
  - destruct c as [rs re l o ob so | id rs re | id rs re l o ob so
                  | rs re tn tg sx l o ob so | tn rs re ex tg sx l o ob so
                  | tn ex rs re l o ob so]; cbn [invoke printed]; rewrite ?app_nil_r.
    + rewrite get_all_sources_pipeline. apply fetch_store_return_stdout.
    + destruct (py_str id) as [e|sid] eqn:Hstr.
      * destruct (decide (e = TypeError)) as [->|Hne].
        -- destruct (py_format_s _ _ id) as [e|message] eqn:Hfmt.
           ++ rewrite (get_a_source_handler_raises _ _ _ _ _ Hstr Hfmt).
              by rewrite app_nil_r.
           ++ rewrite (get_a_source_handled _ _ _ _ _ Hstr Hfmt).
              apply fetch_store_return_stdout.
        -- rewrite (get_a_source_escapes _ _ _ _ _ Hstr Hne).
           destruct e; by rewrite ?app_nil_r.
      * rewrite (get_a_source_pipeline _ _ _ _ _ Hstr), app_nil_r.
        apply fetch_store_return_stdout.
    + destruct (py_str id) as [e|sid] eqn:Hstr.
      * destruct (decide (e = TypeError)) as [->|Hne].
        -- destruct (py_format_s _ _ id) as [e|message] eqn:Hfmt.
           ++ rewrite (get_releases_for_a_source_handler_raises _ _ _ _ _ _ _ _ _ Hstr Hfmt).
              by rewrite app_nil_r.
           ++ rewrite (get_releases_for_a_source_handled _ _ _ _ _ _ _ _ _ Hstr Hfmt).
              apply fetch_store_return_stdout.
        -- rewrite (get_releases_for_a_source_escapes _ _ _ _ _ _ _ _ _ Hstr Hne).
           destruct e; by rewrite ?app_nil_r.
      * rewrite (get_releases_for_a_source_pipeline _ _ _ _ _ _ _ _ _ Hstr), app_nil_r.
        apply fetch_store_return_stdout.
    + rewrite get_tags_pipeline. apply fetch_store_return_stdout.
    + rewrite get_related_tags_for_a_tag_pipeline. unfold pipeline.
      rewrite fetch_store_return_stdout.
      destruct (py_join ";" tn) as [e|joined] eqn:Hjoin; cbn; [|by rewrite app_nil_r].
      by rewrite (py_join_raises _ _ _ Hjoin).
    + rewrite get_series_matching_tags_fetch, fetch_store_return_stdout.
      destruct (py_join ";" tn) as [e|joined] eqn:Hjoin; cbn; [|by rewrite app_nil_r].
      by rewrite (py_join_raises _ _ _ Hjoin).
  - destruct c as [rs re l o ob so | id rs re | id rs re l o ob so
                  | rs re tn tg sx l o ob so | tn rs re ex tg sx l o ob so
                  | tn ex rs re l o ob so]; cbn [printed]; try reflexivity.
    + destruct id as [|n|s|[s|]|[]|[[]|] [e|text]|[[]|] [|[] []]]; try done.
      cbn. by destruct (str_int_allowed n).
    + destruct id as [|n|s|[s|]|[]|[[]|] [e|text]|[[]|] [|[] []]]; try done.
      cbn. by destruct (str_int_allowed n).
    + destruct (py_join ";" tn) as [e|joined] eqn:Hjoin; [|done].
      by rewrite (py_join_raises _ _ _ Hjoin).
    + destruct (py_join ";" tn) as [e|joined] eqn:Hjoin; [|done].
      by rewrite (py_join_raises _ _ _ Hjoin).
Qed.

(** X5.  Every call asks the service at most once.  It asks exactly
    once, and takes over the world the service leaves, unless it ends
    with an exception in the state it started in, having asked
    nothing. *)
Theorem one_request_per_call c st :
  (∃ url,
     requests (call (invoke c) st).2 = requests st ++ [url]
     ∧ world (call (invoke c) st).2 = (_fetch_data url (world st)).2)
  ∨ ∃ e, call (invoke c) st = (inl e, st).
Proof.
  destruct (invoke_cases c st) as [Hraise | (url & st1 & Hself & Hreq & Hworld & Heq)].
  { by right. }
  left. exists url. rewrite Heq, fetch_store_return_requests, Hreq. split; [done|].
  unfold fetch_store_return. rewrite Hworld.
  by destruct (_fetch_data url (world st)) as [[e|v] w].
Qed.

(** X6.  When an exception escapes a call, the object is as it was, and
    either the exception is the one its fetch raised, or the whole
    state is as it was: nothing was printed, asked or written.  So the
    reading back of the stored entry never fails. *)
Theorem escaping_exception c st e :
  (call (invoke c) st).1 = inl e →
  self (call (invoke c) st).2 = self st
  ∧ ((∃ url, fetched_url c st = Some url ∧ (_fetch_data url (world st)).1 = inl e)
     ∨ (call (invoke c) st).2 = st).
Proof.
  intros Hraise. split; [by eapply raise_keeps_self|]. revert Hraise.
  unfold fetched_url.
  destruct (invoke_cases c st) as [[e0 ->] | (url & st1 & Hself & Hreq & Hworld & Heq)].
  { cbn. by right. }
  rewrite Heq, fetch_store_return_requests, fetch_store_return_result, Hreq, Hworld.
  intros Hraise. left. exists url. split.
  - by apply list_lookup_middle.
  - by destruct (_fetch_data url (world st)) as [[e'|v] w]; cbn in *; simplify_eq.
Qed.

(** X7.  The dictionaries are written, never consulted: what a call
    returns or raises, prints and asks for is the same whatever the two
    dictionaries hold when it starts. *)
Theorem stacks_are_never_consulted c st (sources tags : gmap string json) :
  let st0 := mkState (mkInstance (base (self st)) sources tags)
                     (stdout st) (requests st) (world st) in
  (call (invoke c) st0).1 = (call (invoke c) st).1
  ∧ stdout (call (invoke c) st0).2 = stdout (call (invoke c) st).2
  ∧ requests (call (invoke c) st0).2 = requests (call (invoke c) st).2
  ∧ world (call (invoke c) st0).2 = world (call (invoke c) st).2.
Proof.
  intros st0.
  assert (∀ s name url st1 st2,
            stdout st1 = stdout st2 → requests st1 = requests st2 →
            world st1 = world st2 →
            (fetch_store_return s name url st1).1 = (fetch_store_return s name url st2).1
            ∧ stdout (fetch_store_return s name url st1).2
              = stdout (fetch_store_return s name url st2).2
            ∧ requests (fetch_store_return s name url st1).2
              = requests (fetch_store_return s name url st2).2
            ∧ world (fetch_store_return s name url st1).2
              = world (fetch_store_return s name url st2).2) as Hfsr.
  { intros s name url st1 st2 Hout Hreq Hworld. unfold fetch_store_return.
    rewrite Hworld. destruct (_fetch_data url (world st2)) as [[e|v] w]; cbn;
      by rewrite ?Hout, ?Hreq. }
  destruct c as [rs re l o ob so | id rs re | id rs re l o ob so
                | rs re tn tg sx l o ob so | tn rs re ex tg sx l o ob so
                | tn ex rs re l o ob so]; cbn [invoke].
  - rewrite !get_all_sources_pipeline. by apply Hfsr.
  - destruct (get_a_source_cases id rs re) as [[e He]|[p [Hp|[message Hp]]]].
    + by rewrite !He.
    + rewrite !Hp. by apply Hfsr.
    + rewrite !Hp. by apply Hfsr.
  - destruct (get_releases_for_a_source_cases id rs re l o ob so)
      as [[e He]|[p [Hp|[message Hp]]]].
    + by rewrite !He.
    + rewrite !Hp. by apply Hfsr.
    + rewrite !Hp. by apply Hfsr.
  - rewrite !get_tags_pipeline. by apply Hfsr.
  - rewrite !get_related_tags_for_a_tag_pipeline.
    apply Hfsr; by destruct (py_join ";" tn).
  - rewrite !get_series_matching_tags_fetch.
    apply Hfsr; by destruct (py_join ";" tn).
Qed.

(** X12.  [source_id] is not checked against its annotation: whatever
    [str()] makes of the argument goes into the prefix, nothing is
    printed, and the call continues as for a number.  [None], for one,
    is asked for as [source_id=None]. *)
Theorem source_id_is_not_checked source_id sid rs re l o ob so st :
  py_str source_id = inr sid →
  py_str PyNone = inr "None"
  ∧ call (get_a_source source_id rs re) st =
    pipeline Source_stack "get_a_source" ("source?source_id=" +:+ sid)
      [ ("&realtime_start=", PStr <$> rs); ("&realtime_end=", PStr <$> re) ] st
  ∧ call (get_releases_for_a_source source_id rs re l o ob so) st =
    pipeline Source_stack "get_releases_for_a_source" ("source/releases?source_id=" +:+ sid)
      [ ("&realtime_start=", PStr <$> rs); ("&realtime_end=", PStr <$> re);
        ("&limit=", PInt <$> l); ("&offset=", PInt <$> o);
        ("&order_by=", PStr <$> ob); ("&sort_order=", PStr <$> so) ] st.
Proof.
  intros Hstr. split_and!; [reflexivity| |].
  - by apply get_a_source_pipeline.
  - by apply get_releases_for_a_source_pipeline.
Qed.

(** X13.  What a call returns is the answer of the service to the URL
    the call asked for, as it came. *)
Theorem returned_value_is_the_answer c st r st' :
  call (invoke c) st = (inr r, st') →
  ∃ url answer,
    fetched_url c st = Some url
    ∧ _fetch_data url (world st) = (inr answer, world st')
    ∧ r = Some answer.
Proof.
  intros Hcall. unfold fetched_url. rewrite Hcall. cbn [snd]. revert Hcall.
  destruct (invoke_cases c st) as [[e ->] | (url & st1 & Hself & Hreq & Hworld & ->)].
  { discriminate. }
  unfold fetch_store_return. rewrite Hworld, Hreq.
  destruct (_fetch_data url (world st)) as [[e|v] w] eqn:Hfetch; [discriminate|].
  intros [= <- <-]. exists url, v. cbn. split_and!; [|done..].
  by apply list_lookup_middle.
Qed.

(** ** Successive calls *)

(** X8.  Two calls of the same method in a row, both returning
    normally: the object ends as it would have if only the second
    result had been written; the first result is gone. *)
Theorem second_call_overwrites c1 c2 st r1 st1 r2 st2 :
  call (invoke c1) st = (inr r1, st1) →
  call (invoke c2) st1 = (inr r2, st2) →
  stack_of c1 = stack_of c2 →
  method_name c1 = method_name c2 →
  ∃ v2, r2 = Some v2
    ∧ self st2 = store (stack_of c2) (method_name c2) v2 (self st).
Proof.
  intros H1 H2 Hstack Hname.
  destruct (normal_return _ _ _ _ H1) as (v1 & -> & Hself1).
  destruct (normal_return _ _ _ _ H2) as (v2 & -> & Hself2).
  exists v2. split; [done|]. rewrite Hself2, Hself1, Hstack, Hname.
  destruct (stack_of c2); cbn; by rewrite insert_insert_eq.
Qed.

(** X9.  Two calls of different methods in a row, both returning
    normally: afterwards each result is found under the name of its
    method. *)
Theorem results_of_different_methods_coexist c1 c2 st r1 st1 r2 st2 :
  call (invoke c1) st = (inr r1, st1) →
  call (invoke c2) st1 = (inr r2, st2) →
  method_name c1 ≠ method_name c2 →
  read (stack_of c1) (self st2) !! method_name c1 = r1
  ∧ read (stack_of c2) (self st2) !! method_name c2 = r2.
Proof.
  intros H1 H2 Hname.
  destruct (normal_return _ _ _ _ H1) as (v1 & -> & Hself1).
  destruct (normal_return _ _ _ _ H2) as (v2 & -> & Hself2).
  rewrite Hself2. split.
  - rewrite read_store_other by (right; done).
    by rewrite Hself1, read_store_same, lookup_insert_eq.
  - by rewrite read_store_same, lookup_insert_eq.
Qed.

(** X14.  A call that raises after an earlier call of the same method
    returned normally leaves the earlier result in place: the
    dictionary still gives it under the method's name. *)
Theorem failure_keeps_previous_result c1 c2 st r1 st1 e :
  call (invoke c1) st = (inr r1, st1) →
  (call (invoke c2) st1).1 = inl e →
  read (stack_of c1) (self (call (invoke c2) st1).2) !! method_name c1 = r1.
Proof.
  intros H1 H2. rewrite (raise_keeps_self _ _ _ H2).
  destruct (normal_return _ _ _ _ H1) as (v1 & -> & ->).
  by rewrite read_store_same, lookup_insert_eq.
Qed.

(** ** The object over its lifetime *)

(** X10.  The keys of the two dictionaries stay among the names of the
    methods of their class: this holds for a new object and is kept by
    every call, however it ends.  So neither dictionary ever holds more
    than three entries. *)
Theorem stacks_stay_well_keyed c st (b : B) :
  well_keyed (self st) →
  well_keyed (init (json := json) b)
  ∧ well_keyed (self (call (invoke c) st).2)
  ∧ size (source_stack (self (call (invoke c) st).2)) ≤ 3
  ∧ size (tag_stack (self (call (invoke c) st).2)) ≤ 3.
Proof.
  intros [Hsrc Htag].
  assert (well_keyed (self (call (invoke c) st).2)) as Hkeep.
  { destruct (call (invoke c) st) as [[e|r] st'] eqn:Hcall.
    - pose proof (raise_keeps_self c st e) as Hself. rewrite Hcall in Hself.
      cbn in *. by rewrite Hself.
    - destruct (normal_return _ _ _ _ Hcall) as (v & -> & Hself). cbn. rewrite Hself.
      unfold well_keyed.
      destruct c; cbn; rewrite dom_insert_L; (split; [try done..]);
        (apply union_least; [|done]); apply singleton_subseteq_l;
        unfold source_methods, tag_methods; set_solver-. }
  split_and!; [|done|..].
  - unfold well_keyed, init. cbn. rewrite !dom_empty_L. split; set_solver.
  - destruct Hkeep as [Hkeep _]. apply subseteq_size in Hkeep.
    rewrite size_dom in Hkeep. etrans; [exact Hkeep|]. by vm_compute.
  - destruct Hkeep as [_ Hkeep]. apply subseteq_size in Hkeep.
    rewrite size_dom in Hkeep. etrans; [exact Hkeep|]. by vm_compute.
Qed.

(** X11.  The first call on a new object that returns normally leaves
    exactly one entry behind: its own dictionary is the singleton of
    its name and result, the other dictionary is still empty. *)
Theorem first_call_on_new_object c (b : B) out reqs w r st' :
  call (invoke c) (mkState (init b) out reqs w) = (inr r, st') →
  ∃ v, r = Some v
    ∧ read (stack_of c) (self st') = {[ method_name c := v ]}
    ∧ ∀ s, s ≠ stack_of c → read s (self st') = ∅.
Proof.
  intros Hcall. destruct (normal_return _ _ _ _ Hcall) as (v & -> & Hself).
  exists v. split; [done|]. rewrite Hself. cbn [self]. split.
  - rewrite read_store_same. by destruct (stack_of c).
  - intros s Hs. by destruct s, (stack_of c).
Qed.

End Behaviour.

(** ** Runs of the further properties *)

Lemma unjoinable_tag_names_are_reported_witness :
  py_join ";" (PyVal PyNone) = inl TypeError
  ∧ call (get_series_matching_tags (helpers := series_of echo)
            (PyVal PyNone) None None None None None None None) fresh =
    fetch_store_return (helpers := series_of echo) Tag_stack "get_series_matching_tags"
      ("tags/series?tag_names=" +:+ get_realtime_date_window series_init None None)
      (log_line "tag_names must be list or tuple" fresh).
Proof.
  split; [reflexivity|].
  apply (unjoinable_tag_names_are_reported (helpers := series_of echo)
           (PyVal PyNone) TypeError None None None None None None None None None fresh).
  reflexivity.
Defined.

Lemma one_bad_tag_name_drops_all_witness :
  Exists (λ v, is_str v = false) [PyStr "usa"; PyInt 3]
  ∧ requests (call (get_series_matching_tags (helpers := series_of echo)
                      (PyList [PyStr "usa"; PyInt 3]) None None None None None None None)
                   fresh).2 =
    requests fresh ++
    ["tags/series?tag_names=" +:+ get_realtime_date_window series_init None None].
Proof.
  assert (Exists (λ v, is_str v = false) [PyStr "usa"; PyInt 3]) as Hbad.
  { apply Exists_cons_tl, Exists_cons_hd. reflexivity. }
  split; [exact Hbad|].
  apply (one_bad_tag_name_drops_all (helpers := series_of echo)
           [PyStr "usa"; PyInt 3] None None None None None None None None None fresh Hbad).
Defined.

Lemma escaping_exception_witness :
  let c := Get_a_source (PyObj None) None None in
  (call (invoke (helpers := series_of echo) c) fresh).1 = inl TypeError
  ∧ self (call (invoke (helpers := series_of echo) c) fresh).2 = self fresh
  ∧ ((∃ url, fetched_url (helpers := series_of echo) c fresh = Some url
             ∧ (echo url (world fresh)).1 = inl TypeError)
     ∨ (call (invoke (helpers := series_of echo) c) fresh).2 = fresh).
Proof.
  intros c. split; [reflexivity|].
  apply (escaping_exception (helpers := series_of echo) c fresh TypeError).
  reflexivity.
Defined.

Lemma second_call_overwrites_witness :
  let c1 := Get_all_sources None None None None None None in
  let c2 := Get_all_sources None None (Some 2%Z) None None None in
  let out1 := call (invoke (helpers := series_of echo) c1) fresh in
  let out2 := call (invoke (helpers := series_of echo) c2) out1.2 in
  out1 = (inr (Some "sources?"), out1.2)
  ∧ out2 = (inr (Some "sources?&limit=2"), out2.2)
  ∧ ∃ v2, Some "sources?&limit=2" = Some v2
      ∧ self out2.2 = store (stack_of c2) (method_name c2) v2 (self fresh).
Proof.
  intros c1 c2 out1 out2. split; [reflexivity|]. split; [reflexivity|].
  apply (second_call_overwrites (helpers := series_of echo) c1 c2 fresh
           (Some "sources?") out1.2);
    reflexivity.
Defined.

Lemma results_of_different_methods_coexist_witness :
  let c1 := Get_all_sources None None None None None None in
  let c2 := Get_a_source (PyInt 4) None None in
  let out1 := call (invoke (helpers := series_of echo) c1) fresh in
  let out2 := call (invoke (helpers := series_of echo) c2) out1.2 in
  out1 = (inr (Some "sources?"), out1.2)
  ∧ out2 = (inr (Some "source?source_id=4"), out2.2)
  ∧ method_name c1 ≠ method_name c2
  ∧ read (stack_of c1) (self out2.2) !! method_name c1 = Some "sources?"
  ∧ read (stack_of c2) (self out2.2) !! method_name c2 = Some "source?source_id=4".
Proof.
  intros c1 c2 out1 out2.
  assert (method_name c1 ≠ method_name c2) as Hne by (by vm_compute).
  split; [reflexivity|]. split; [reflexivity|]. split; [exact Hne|].
  apply (results_of_different_methods_coexist (helpers := series_of echo) c1 c2 fresh
           (Some "sources?") out1.2 (Some "source?source_id=4") out2.2);
    [reflexivity|reflexivity|exact Hne].
Defined.

Lemma stacks_stay_well_keyed_witness :
  let c := Get_tags None None None None (Some "price") None None None None in
  well_keyed (self fresh)
  ∧ well_keyed (self (call (invoke (helpers := series_of echo) c) fresh).2)
  ∧ size (tag_stack (self (call (invoke (helpers := series_of echo) c) fresh).2)) ≤ 3.
Proof.
  intros c.
  assert (well_keyed (self fresh)) as Hfresh.
  { split; cbn; rewrite dom_empty_L; apply empty_subseteq. }
  split; [exact Hfresh|].
  destruct (stacks_stay_well_keyed (helpers := series_of echo) c fresh series_init Hfresh)
    as (_ & Hkeep & _ & Hsize).
  split; [exact Hkeep|exact Hsize].
Defined.

Lemma first_call_on_new_object_witness :
  let c := Get_tags None None None None (Some "price") None None None None in
  let out := call (invoke (helpers := series_of echo) c) (mkState (init series_init) [] [] 0%nat) in
  out = (inr (Some "tags?&search_text=price"), out.2)
  ∧ ∃ v, Some "tags?&search_text=price" = Some v
      ∧ read (stack_of c) (self out.2) = {[ method_name c := v ]}
      ∧ ∀ s, s ≠ stack_of c → read s (self out.2) = ∅.
Proof.
  intros c out. split; [reflexivity|].
  apply (first_call_on_new_object (helpers := series_of echo) c series_init [] [] 0%nat).
  reflexivity.
Defined.

Lemma source_id_is_not_checked_witness :
  py_str PyNone = inr "None"
  ∧ call (get_a_source (helpers := series_of echo) PyNone None None) fresh =
    pipeline (helpers := series_of echo) Source_stack "get_a_source"
      ("source?source_id=" +:+ "None")
      [ ("&realtime_start=", PStr <$> None); ("&realtime_end=", PStr <$> None) ] fresh.
Proof.
  split; [reflexivity|].
  apply (source_id_is_not_checked (helpers := series_of echo)
           PyNone "None" None None None None None None fresh).
  reflexivity.
Defined.

Lemma returned_value_is_the_answer_witness :
  let c := Get_releases_for_a_source (PyInt 18) None None (Some 2%Z) None None None in
  let out := call (invoke (helpers := series_of echo) c) fresh in
  out = (inr (Some "source/releases?source_id=18&limit=2"), out.2)
  ∧ ∃ url answer,
      fetched_url (helpers := series_of echo) c fresh = Some url
      ∧ echo url (world fresh) = (inr answer, world out.2)
      ∧ Some "source/releases?source_id=18&limit=2" = Some answer.
Proof.
  intros c out. split; [reflexivity|].
  apply (returned_value_is_the_answer (helpers := series_of echo) c fresh).
  reflexivity.
Defined.

Lemma failure_keeps_previous_result_witness :
  let c1 := Get_a_source (PyInt 1) None None in
  let c2 := Get_a_source (PyObj None) None None in
  let out1 := call (invoke (helpers := series_of echo) c1) fresh in
  let out2 := call (invoke (helpers := series_of echo) c2) out1.2 in
  out1 = (inr (Some "source?source_id=1"), out1.2)
  ∧ out2.1 = inl TypeError
  ∧ read (stack_of c1) (self out2.2) !! method_name c1 = Some "source?source_id=1".
Proof.
  intros c1 c2 out1 out2. split; [reflexivity|]. split; [reflexivity|].
  apply (failure_keeps_previous_result (helpers := series_of echo) c1 c2 fresh
           (Some "source?source_id=1") out1.2 TypeError);
    reflexivity.
Defined.
